(** * squirrel_ctx.go: context-aware runners and dispatch helpers

    A shallow embedding of [squirrel_ctx.go].  Calls on a database client
    are effects: every method of a client handle, of a native cursor or of
    a capability interface is a computation over an explicit state made of
    the client's own world and the trace of the calls performed so far.
    Dereferencing a nil pointer or calling a method on a nil interface
    panics. *)

From Stdlib Require Import ZArith.
From stdpp Require Import base list strings.

Open Scope Z_scope.
Open Scope string_scope.
Open Scope list_scope.

(** ** Go values *)

(** A value of type [interface{}] / [any], as passed in argument lists and
    scan destinations. *)
Inductive any : Type :=
| any_nil
| any_int (n : Z)
| any_string (s : string)
| any_bool (b : bool).

(** A non-nil [error], as made by [errors.New]. *)
Inductive error_value : Type :=
| errors_New (text : string).

(** A Go [error]: [None] is [nil]. *)
Definition error : Type := option error_value.

(** [var NoContextSupport = errors.New("DB does not support Context")] *)
Definition NoContextSupport : error :=
  Some (errors_New "DB does not support Context").

(** [context.Context], by the way the value was built. *)
Inductive Context : Type :=
| context_Background
| context_WithCancel (parent : Context)
| context_WithDeadline (parent : Context) (d : Z).

(** [ctx.Deadline()]: the earliest deadline on the chain, if any. *)
Fixpoint Context_Deadline (ctx : Context) : option Z :=
  match ctx with
  | context_Background => None
  | context_WithCancel parent => Context_Deadline parent
  | context_WithDeadline parent d =>
      match Context_Deadline parent with
      | Some d' => Some (Z.min d d')
      | None => Some d
      end
  end.

(** [ctx.Done() != nil]: whether the context carries a cancellation
    signal. *)
Definition Context_cancellable (ctx : Context) : bool :=
  match ctx with
  | context_Background => false
  | context_WithCancel _ => true
  | context_WithDeadline _ _ => true
  end.

(** [Sqlizer]: the statement producer; [ToSql()] yields the query text,
    the positional arguments and the build error. *)
Record Sqlizer : Type := { ToSql : string * list any * error }.

(** [pgconn.FieldDescription]; this package reads [Name] only. *)
Record FieldDescription : Type := {
  Name : string;
  TableOID : Z;
  DataTypeOID : Z
}.

(** ** Calls observed on clients *)

Inductive Event : Type :=
(* methods of the capability interfaces, called by the dispatch helpers *)
| CallExecContext (ctx : Context) (query : string) (args : list any)
| CallQueryContext (ctx : Context) (query : string) (args : list any)
| CallQueryRowContext (ctx : Context) (query : string) (args : list any)
(* methods of a wrapped StdSqlCtx handle *)
| StdQueryRow (query : string) (args : list any)
| StdQueryRowContext (ctx : Context) (query : string) (args : list any)
| StdQueryContext (ctx : Context) (query : string) (args : list any)
| StdExecContext (ctx : Context) (query : string) (args : list any)
(* methods of a wrapped Pgx handle *)
| PgxQueryContext (ctx : Context) (query : string) (args : list any)
| PgxExec (ctx : Context) (sql : string) (arguments : list any)
| PgxQueryRow (ctx : Context) (sql : string) (args : list any)
(* methods of a native cursor or native row *)
| NativeClose
| NativeErr
| NativeNext
| NativeScan (dest : list any)
| NativeColumns
| NativeFieldDescriptions.

Section Squirrel.

(** The state of the database client behind a handle. *)
Context {W : Type}.

(** [pgconn.CommandTag] and its [RowsAffected] method belong to the pgx
    driver. *)
Context {CommandTag : Type}.
Variable CommandTag_RowsAffected : CommandTag -> Z.

(** ** Computations *)

Record State : Type := { world : W; trace : list Event }.

Inductive Outcome (A : Type) : Type :=
| Returned (a : A) (st : State)
| Panicked (st : State).
Arguments Returned {A} a st.
Arguments Panicked {A} st.

Definition M (A : Type) : Type := State -> Outcome A.

#[global] Instance M_ret : MRet M := fun A a st => Returned a st.

#[global] Instance M_bind : MBind M := fun A B f m st =>
  match m st with
  | Returned a st' => f a st'
  | Panicked st' => Panicked st'
  end.

Definition panic {A : Type} : M A := fun st => Panicked st.

(** A call of a native method: it is recorded, then runs on the client's
    world. *)
Definition call {A : Type} (ev : Event) (f : W -> A * W) : M A :=
  fun st =>
    let (a, w) := f (world st) in
    Returned a {| world := w; trace := trace st ++ [ev] |}.

(** A call of a method of a capability interface: it is recorded, then the
    implementation runs. *)
Definition invoke {A : Type} (ev : Event) (m : M A) : M A :=
  fun st => m {| world := world st; trace := trace st ++ [ev] |}.

(** ** Native result types *)

(** [*sql.Rows] *)
Record sql_Rows : Type := {
  sqlRows_Close : W -> error * W;
  sqlRows_Err : W -> error * W;
  sqlRows_Next : W -> bool * W;
  sqlRows_Scan : list any -> W -> error * W;
  sqlRows_Columns : W -> (option (list string) * error) * W
}.

(** [pgx.Rows]; a nil slice of field descriptions is [None]. *)
Record pgx_Rows : Type := {
  pgxRows_Close : W -> unit * W;
  pgxRows_Err : W -> error * W;
  pgxRows_Next : W -> bool * W;
  pgxRows_Scan : list any -> W -> error * W;
  pgxRows_FieldDescriptions : W -> option (list FieldDescription) * W
}.

(** [*sql.Row] and [pgx.Row]: a native single-row scanner. *)
Record native_Row : Type := { nativeRow_Scan : list any -> W -> error * W }.

(** A [sql.Result] made by a database/sql driver. *)
Record driver_Result : Type := {
  driver_LastInsertId : Z * error;
  driver_RowsAffected : Z * error
}.

(** [type commandTagWrapper struct { pgconn.CommandTag }] *)
Record commandTagWrapper : Type := { commandTag : CommandTag }.

(** The interface [sql.Result], by dynamic type. *)
Inductive sql_Result : Type :=
| Result_nil
| Result_driver (r : driver_Result)
| Result_commandTag (ct : commandTagWrapper).

(** [type StdRowsWrapper struct { *sql.Rows }]; a nil pointer is [None]. *)
Record StdRowsWrapper : Type := { StdRows : option sql_Rows }.

(** [type PgxRowsWrapper struct { pgx.Rows }]; a nil interface is
    [None]. *)
Record PgxRowsWrapper : Type := { PgxRows : option pgx_Rows }.

(** The interface [Rows], by dynamic type. *)
Inductive Rows : Type :=
| Rows_nil
| Rows_Std (r : StdRowsWrapper)
| Rows_Pgx (r : PgxRowsWrapper).

(** The interface [RowScanner], by dynamic type.  [RowScanner_Row inner err]
    is [&Row{RowScanner: inner, err: err}]. *)
Inductive RowScanner : Type :=
| RowScanner_nil
| RowScanner_native (row : native_Row)
| RowScanner_Row (inner : RowScanner) (err : error).

(** ** Capability interfaces *)

Record ExecerContext : Type := {
  ExecContext : Context -> string -> list any -> M (sql_Result * error)
}.

Record QueryerContext : Type := {
  QueryContext : Context -> string -> list any -> M (Rows * error)
}.

Record QueryRowerContext : Type := {
  QueryRowContext : Context -> string -> list any -> M RowScanner
}.

(** [RunnerContext] embeds the three interfaces above. *)
Record RunnerContext : Type := {
  Runner_Queryer :> QueryerContext;
  Runner_QueryRower :> QueryRowerContext;
  Runner_Execer :> ExecerContext
}.

(** ** Client handles *)

(** Modelled from the spec: the interface [StdSql], declared in another
    file of the package: the native blocking exec, query and
    query-single-row methods of the standard client. [StdSqlCtx] embeds it
    and adds the context versions. *)
Record StdSqlCtx : Type := {
  Std_Query : string -> list any -> W -> (option sql_Rows * error) * W;
  Std_QueryRow : string -> list any -> W -> native_Row * W;
  Std_Exec : string -> list any -> W -> (sql_Result * error) * W;
  Std_QueryContext :
    Context -> string -> list any -> W -> (option sql_Rows * error) * W;
  Std_QueryRowContext : Context -> string -> list any -> W -> native_Row * W;
  Std_ExecContext :
    Context -> string -> list any -> W -> (sql_Result * error) * W
}.

(** [type Pgx interface] *)
Record Pgx : Type := {
  Pgx_QueryContext :
    Context -> string -> list any -> W -> (option pgx_Rows * error) * W;
  Pgx_Exec : Context -> string -> list any -> W -> (CommandTag * error) * W;
  Pgx_QueryRow : Context -> string -> list any -> W -> native_Row * W
}.

(** ** The standard adapter *)

(** [type stdsqlCtxRunner struct { StdSqlCtx }] *)
Record stdsqlCtxRunner : Type := { stdSqlCtx : StdSqlCtx }.

Definition stdsqlCtxRunner_QueryRow (r : stdsqlCtxRunner)
    (query : string) (args : list any) : M RowScanner :=
  row ← call (StdQueryRow query args) (Std_QueryRow (stdSqlCtx r) query args);
  mret (RowScanner_native row).

Definition stdsqlCtxRunner_QueryRowContext (r : stdsqlCtxRunner)
    (ctx : Context) (query : string) (args : list any) : M RowScanner :=
  row ← call (StdQueryRowContext ctx query args)
             (Std_QueryRowContext (stdSqlCtx r) ctx query args);
  mret (RowScanner_native row).

Definition stdsqlCtxRunner_QueryContext (r : stdsqlCtxRunner)
    (ctx : Context) (query : string) (args : list any) : M (Rows * error) :=
  '(rows, err) ← call (StdQueryContext ctx query args)
                      (Std_QueryContext (stdSqlCtx r) ctx query args);
  match err with
  | Some _ => mret (Rows_nil, err)
  | None => mret (Rows_Std {| StdRows := rows |}, None)
  end.

(** [ExecContext] is promoted from the embedded [StdSqlCtx]. *)
Definition stdsqlCtxRunner_ExecContext (r : stdsqlCtxRunner)
    (ctx : Context) (query : string) (args : list any)
    : M (sql_Result * error) :=
  call (StdExecContext ctx query args)
       (Std_ExecContext (stdSqlCtx r) ctx query args).

Definition WrapStdSqlCtx (c : StdSqlCtx) : RunnerContext :=
  let r := {| stdSqlCtx := c |} in
  {| Runner_Queryer := {| QueryContext := stdsqlCtxRunner_QueryContext r |};
     Runner_QueryRower :=
       {| QueryRowContext := stdsqlCtxRunner_QueryRowContext r |};
     Runner_Execer := {| ExecContext := stdsqlCtxRunner_ExecContext r |} |}.

(** ** The pgx adapter *)

(** [type pgxRunner struct { Pgx }] *)
Record pgxRunner : Type := { pgx : Pgx }.

Definition pgxRunner_QueryRowContext (r : pgxRunner)
    (ctx : Context) (query : string) (args : list any) : M RowScanner :=
  row ← call (PgxQueryRow ctx query args) (Pgx_QueryRow (pgx r) ctx query args);
  mret (RowScanner_native row).

Definition pgxRunner_ExecContext (r : pgxRunner)
    (ctx : Context) (query : string) (args : list any)
    : M (sql_Result * error) :=
  '(ct, err) ← call (PgxExec ctx query args) (Pgx_Exec (pgx r) ctx query args);
  mret (Result_commandTag {| commandTag := ct |}, err).

Definition pgxRunner_QueryRow (r : pgxRunner)
    (query : string) (args : list any) : M RowScanner :=
  row ← call (PgxQueryRow context_Background query args)
             (Pgx_QueryRow (pgx r) context_Background query args);
  mret (RowScanner_native row).

Definition pgxRunner_QueryContext (r : pgxRunner)
    (ctx : Context) (query : string) (args : list any) : M (Rows * error) :=
  '(rows, err) ← call (PgxQueryContext ctx query args)
                      (Pgx_QueryContext (pgx r) ctx query args);
  match err with
  | Some _ => mret (Rows_nil, err)
  | None => mret (Rows_Pgx {| PgxRows := rows |}, None)
  end.

Definition WrapPgx (p : Pgx) : RunnerContext :=
  let r := {| pgx := p |} in
  {| Runner_Queryer := {| QueryContext := pgxRunner_QueryContext r |};
     Runner_QueryRower := {| QueryRowContext := pgxRunner_QueryRowContext r |};
     Runner_Execer := {| ExecContext := pgxRunner_ExecContext r |} |}.

(** ** Dispatch helpers *)

(** The named results [res] and [err] start at their zero values; the
    short declaration assigns the existing [err]. *)
Definition ExecContextWith (ctx : Context) (db : ExecerContext) (s : Sqlizer)
    : M (sql_Result * error) :=
  let '(query, args, err) := ToSql s in
  match err with
  | Some _ => mret (Result_nil, err)
  | None => invoke (CallExecContext ctx query args)
                   (ExecContext db ctx query args)
  end.

Definition QueryContextWith (ctx : Context) (db : QueryerContext) (s : Sqlizer)
    : M (Rows * error) :=
  let '(query, args, err) := ToSql s in
  match err with
  | Some _ => mret (Rows_nil, err)
  | None => invoke (CallQueryContext ctx query args)
                   (QueryContext db ctx query args)
  end.

Definition QueryRowContextWith (ctx : Context) (db : QueryRowerContext)
    (s : Sqlizer) : M RowScanner :=
  let '(query, args, err) := ToSql s in
  inner ← invoke (CallQueryRowContext ctx query args)
                 (QueryRowContext db ctx query args);
  mret (RowScanner_Row inner err).

(** Modelled from the spec: the [Scan] method of [*Row], declared in
    another file of the package.  A Row Scanner is either bound to a live
    scanner or carries a deferred build error, which [Scan] returns
    without touching the scanner underneath.  A native row scans on the
    client; a nil scanner panics. *)
Fixpoint RowScanner_Scan (rs : RowScanner) (dest : list any) : M error :=
  match rs with
  | RowScanner_nil => panic
  | RowScanner_native row => call (NativeScan dest) (nativeRow_Scan row dest)
  | RowScanner_Row inner err =>
      match err with
      | Some _ => mret err
      | None => RowScanner_Scan inner dest
      end
  end.

(** ** Execution outcomes *)

Definition commandTagWrapper_RowsAffected (ct : commandTagWrapper)
    : Z * error :=
  (CommandTag_RowsAffected (commandTag ct), None).

Definition commandTagWrapper_LastInsertId (ct : commandTagWrapper)
    : Z * error :=
  (0, Some (errors_New "LastInsertId is not supported by pgx")).

(** [res.RowsAffected()] and [res.LastInsertId()] on a [sql.Result]. *)
Definition sql_Result_RowsAffected (res : sql_Result) : M (Z * error) :=
  match res with
  | Result_nil => panic
  | Result_driver r => mret (driver_RowsAffected r)
  | Result_commandTag ct => mret (commandTagWrapper_RowsAffected ct)
  end.

Definition sql_Result_LastInsertId (res : sql_Result) : M (Z * error) :=
  match res with
  | Result_nil => panic
  | Result_driver r => mret (driver_LastInsertId r)
  | Result_commandTag ct => mret (commandTagWrapper_LastInsertId ct)
  end.

(** ** Cursors *)

(** A method call through an embedded pointer or interface: nil panics. *)
Definition deref {R A : Type} (o : option R) (k : R -> M A) : M A :=
  match o with
  | Some r => k r
  | None => panic
  end.

Definition StdRowsWrapper_Close (r : StdRowsWrapper) : M unit :=
  deref (StdRows r) (fun rows =>
    _ ← call NativeClose (sqlRows_Close rows);
    mret tt).

Definition StdRowsWrapper_Err (r : StdRowsWrapper) : M error :=
  deref (StdRows r) (fun rows => call NativeErr (sqlRows_Err rows)).

Definition StdRowsWrapper_Next (r : StdRowsWrapper) : M bool :=
  deref (StdRows r) (fun rows => call NativeNext (sqlRows_Next rows)).

Definition StdRowsWrapper_Scan (r : StdRowsWrapper) (dest : list any)
    : M error :=
  deref (StdRows r) (fun rows =>
    call (NativeScan dest) (sqlRows_Scan rows dest)).

Definition StdRowsWrapper_Columns (r : StdRowsWrapper)
    : M (option (list string) * error) :=
  deref (StdRows r) (fun rows => call NativeColumns (sqlRows_Columns rows)).

Definition PgxRowsWrapper_Close (r : PgxRowsWrapper) : M unit :=
  deref (PgxRows r) (fun rows => call NativeClose (pgxRows_Close rows)).

Definition PgxRowsWrapper_Err (r : PgxRowsWrapper) : M error :=
  deref (PgxRows r) (fun rows => call NativeErr (pgxRows_Err rows)).

Definition PgxRowsWrapper_Next (r : PgxRowsWrapper) : M bool :=
  deref (PgxRows r) (fun rows => call NativeNext (pgxRows_Next rows)).

Definition PgxRowsWrapper_Scan (r : PgxRowsWrapper) (dest : list any)
    : M error :=
  deref (PgxRows r) (fun rows =>
    call (NativeScan dest) (pgxRows_Scan rows dest)).

(** [cols[i] = v]: an index out of range panics. *)
Definition slice_store (cols : list string) (i : nat) (v : string)
    : option (list string) :=
  if decide (i < length cols)%nat then Some (<[i := v]> cols) else None.

(** [for i, f := range fields { cols[i] = string(f.Name) }], from index
    [i] on. *)
Fixpoint range_fields (i : nat) (fields : list FieldDescription)
    (cols : list string) : option (list string) :=
  match fields with
  | [] => Some cols
  | f :: rest =>
      match slice_store cols i (Name f) with
      | Some cols' => range_fields (S i) rest cols'
      | None => None
      end
  end.

Definition PgxRowsWrapper_Columns (r : PgxRowsWrapper)
    : M (option (list string) * error) :=
  deref (PgxRows r) (fun rows =>
    fields ← call NativeFieldDescriptions (pgxRows_FieldDescriptions rows);
    match fields with
    | None => mret (None, Some (errors_New "no field descriptions"))
    | Some fields =>
        let cols := replicate (length fields) "" in
        match range_fields 0 fields cols with
        | Some cols' => mret (Some cols', None)
        | None => panic
        end
    end).

(** The methods of the interface [Rows], by dynamic dispatch. *)
Definition Rows_Close (rows : Rows) : M unit :=
  match rows with
  | Rows_nil => panic
  | Rows_Std r => StdRowsWrapper_Close r
  | Rows_Pgx r => PgxRowsWrapper_Close r
  end.

Definition Rows_Err (rows : Rows) : M error :=
  match rows with
  | Rows_nil => panic
  | Rows_Std r => StdRowsWrapper_Err r
  | Rows_Pgx r => PgxRowsWrapper_Err r
  end.

Definition Rows_Columns (rows : Rows) : M (option (list string) * error) :=
  match rows with
  | Rows_nil => panic
  | Rows_Std r => StdRowsWrapper_Columns r
  | Rows_Pgx r => PgxRowsWrapper_Columns r
  end.

Definition Rows_Next (rows : Rows) : M bool :=
  match rows with
  | Rows_nil => panic
  | Rows_Std r => StdRowsWrapper_Next r
  | Rows_Pgx r => PgxRowsWrapper_Next r
  end.

Definition Rows_Scan (rows : Rows) (dest : list any) : M error :=
  match rows with
  | Rows_nil => panic
  | Rows_Std r => StdRowsWrapper_Scan r dest
  | Rows_Pgx r => PgxRowsWrapper_Scan r dest
  end.

(** ** A caller driving a cursor *)

(** One method call on a [Rows] value, and what the caller sees of it. *)
Inductive CursorOp : Type :=
| OpNext
| OpScan (dest : list any)
| OpErr
| OpClose
| OpColumns.

Inductive Observed : Type :=
| SawNext (more : bool)
| SawScan (err : error)
| SawErr (err : error)
| SawClose
| SawColumns (cols : option (list string)) (err : error).

Definition Rows_do (rows : Rows) (op : CursorOp) : M Observed :=
  match op with
  | OpNext => more ← Rows_Next rows; mret (SawNext more)
  | OpScan dest => err ← Rows_Scan rows dest; mret (SawScan err)
  | OpErr => err ← Rows_Err rows; mret (SawErr err)
  | OpClose => _ ← Rows_Close rows; mret SawClose
  | OpColumns => res ← Rows_Columns rows; mret (SawColumns res.1 res.2)
  end.

(** The calls of [ops] made one after the other on the same cursor. *)
Fixpoint Rows_drive (rows : Rows) (ops : list CursorOp)
    : M (list Observed) :=
  match ops with
  | [] => mret []
  | op :: rest =>
      seen ← Rows_do rows op;
      later ← Rows_drive rows rest;
      mret (seen :: later)
  end.

(** The same calls made on the native cursors themselves: what the native
    methods return, and the world they leave. *)
Definition sql_Rows_do (rows : sql_Rows) (op : CursorOp) (w : W)
    : Observed * W :=
  match op with
  | OpNext => let (more, w') := sqlRows_Next rows w in (SawNext more, w')
  | OpScan dest =>
      let (err, w') := sqlRows_Scan rows dest w in (SawScan err, w')
  | OpErr => let (err, w') := sqlRows_Err rows w in (SawErr err, w')
  | OpClose => let (_, w') := sqlRows_Close rows w in (SawClose, w')
  | OpColumns =>
      let (res, w') := sqlRows_Columns rows w in (SawColumns res.1 res.2, w')
  end.

Definition pgx_Rows_do (rows : pgx_Rows) (op : CursorOp) (w : W)
    : Observed * W :=
  match op with
  | OpNext => let (more, w') := pgxRows_Next rows w in (SawNext more, w')
  | OpScan dest =>
      let (err, w') := pgxRows_Scan rows dest w in (SawScan err, w')
  | OpErr => let (err, w') := pgxRows_Err rows w in (SawErr err, w')
  | OpClose => let (_, w') := pgxRows_Close rows w in (SawClose, w')
  | OpColumns =>
      let (fields, w') := pgxRows_FieldDescriptions rows w in
      (match fields with
       | None => SawColumns None (Some (errors_New "no field descriptions"))
       | Some fields => SawColumns (Some (Name <$> fields)) None
       end, w')
  end.

Fixpoint native_drive (step : CursorOp -> W -> Observed * W)
    (ops : list CursorOp) (w : W) : list Observed * W :=
  match ops with
  | [] => ([], w)
  | op :: rest =>
      let (seen, w') := step op w in
      let (later, w'') := native_drive step rest w' in
      (seen :: later, w'')
  end.

(** The native method behind each call; [Columns] reads the field
    descriptions on a pgx cursor. *)
Definition op_Event (columns : Event) (op : CursorOp) : Event :=
  match op with
  | OpNext => NativeNext
  | OpScan dest => NativeScan dest
  | OpErr => NativeErr
  | OpClose => NativeClose
  | OpColumns => columns
  end.

End Squirrel.

Arguments State W : clear implicits.
Arguments Outcome W A : clear implicits.
Arguments M W A : clear implicits.
Arguments sql_Rows W : clear implicits.
Arguments pgx_Rows W : clear implicits.
Arguments native_Row W : clear implicits.
Arguments commandTagWrapper CommandTag : clear implicits.
Arguments sql_Result CommandTag : clear implicits.
Arguments StdRowsWrapper W : clear implicits.
Arguments PgxRowsWrapper W : clear implicits.
Arguments Rows W : clear implicits.
Arguments RowScanner W : clear implicits.
Arguments ExecerContext W CommandTag : clear implicits.
Arguments QueryerContext W : clear implicits.
Arguments QueryRowerContext W : clear implicits.
Arguments RunnerContext W CommandTag : clear implicits.
Arguments StdSqlCtx W CommandTag : clear implicits.
Arguments Pgx W CommandTag : clear implicits.
Arguments stdsqlCtxRunner W CommandTag : clear implicits.
Arguments pgxRunner W CommandTag : clear implicits.
Arguments Returned {W A} a st.
Arguments Panicked {W A} st.

(** ** A scripted client, to run the code on *)

Module Fixture.

(** The client's world: the statements it ran and the error its cursor
    recorded. *)
Record DB : Type := { executed : list string; recorded : error }.

(** A command tag: the verb and the affected-row count; the zero value has
    an empty verb and no rows. *)
Record Tag : Type := { tag_verb : string; tag_rows : Z }.

Definition Tag_zero : Tag := {| tag_verb := ""; tag_rows := 0 |}.

Definition run (query : string) (db : DB) : DB :=
  {| executed := executed db ++ [query]; recorded := recorded db |}.

Definition row : native_Row DB :=
  {| nativeRow_Scan := fun _ db => (None, db) |}.

Definition id_name : list FieldDescription :=
  [ {| Name := "id"; TableOID := 16385; DataTypeOID := 23 |};
    {| Name := "name"; TableOID := 16385; DataTypeOID := 25 |} ].

Definition pgx_cursor (fields : option (list FieldDescription))
    : pgx_Rows DB :=
  {| pgxRows_Close := fun db => (tt, db);
     pgxRows_Err := fun db => (recorded db, db);
     pgxRows_Next := fun db => (false, db);
     pgxRows_Scan := fun _ db => (None, db);
     pgxRows_FieldDescriptions := fun db => (fields, db) |}.

Definition close_failed : error_value := errors_New "close failed".

(** A database/sql cursor whose [Close] fails; [recording] says whether the
    client keeps that error for [Err]. *)
Definition sql_cursor (recording : bool) : sql_Rows DB :=
  {| sqlRows_Close := fun db =>
       (Some close_failed,
        if recording
        then {| executed := executed db; recorded := Some close_failed |}
        else db);
     sqlRows_Err := fun db => (recorded db, db);
     sqlRows_Next := fun db => (false, db);
     sqlRows_Scan := fun _ db => (None, db);
     sqlRows_Columns := fun db => ((Some ["id"; "name"], None), db) |}.

(** A pgx client that reports [n] affected rows. *)
Definition pgx_client (n : Z) : Pgx DB Tag :=
  {| Pgx_QueryContext := fun _ q _ db =>
       ((Some (pgx_cursor (Some id_name)), None), run q db);
     Pgx_Exec := fun _ q _ db =>
       (({| tag_verb := "UPDATE"; tag_rows := n |}, None), run q db);
     Pgx_QueryRow := fun _ q _ db => (row, run q db) |}.

Definition second_failed : error_value :=
  errors_New "second statement failed".

(** A pgx client running two statements in one [Exec]: the first one
    inserts a row, the second one fails. *)
Definition pgx_client_failing : Pgx DB Tag :=
  {| Pgx_QueryContext := fun _ q _ db => ((None, Some second_failed), db);
     Pgx_Exec := fun _ q _ db =>
       (({| tag_verb := "INSERT"; tag_rows := 1 |}, Some second_failed),
        run q db);
     Pgx_QueryRow := fun _ q _ db => (row, run q db) |}.

Definition std_client : StdSqlCtx DB Tag :=
  {| Std_Query := fun q _ db => ((Some (sql_cursor true), None), run q db);
     Std_QueryRow := fun q _ db => (row, run q db);
     Std_Exec := fun q _ db =>
       ((Result_driver {| driver_LastInsertId := (7, None);
                          driver_RowsAffected := (1, None) |}, None),
        run q db);
     Std_QueryContext := fun _ q _ db =>
       ((Some (sql_cursor true), None), run q db);
     Std_QueryRowContext := fun _ q _ db => (row, run q db);
     Std_ExecContext := fun _ q _ db =>
       ((Result_driver {| driver_LastInsertId := (7, None);
                          driver_RowsAffected := (1, None) |}, None),
        run q db) |}.

Definition start : State DB :=
  {| world := {| executed := []; recorded := None |}; trace := [] |}.

Definition build_failed : error_value :=
  errors_New "select statements must have at least one result column".

(** A statement that fails to build: the zero text, nil arguments and the
    error. *)
Definition unbuilt : Sqlizer := {| ToSql := ("", [], Some build_failed) |}.

Definition update : Sqlizer :=
  {| ToSql := ("UPDATE t SET x=1", [], None) |}.

Definition select_by_id : Sqlizer :=
  {| ToSql := ("SELECT id, name FROM t WHERE id = $1", [any_int 7], None) |}.

(** The caller's context in the runs below. *)
Definition ctx : Context := context_WithCancel context_Background.

Definition update_tag : Tag := {| tag_verb := "UPDATE"; tag_rows := 3 |}.

(** The state after [pgx_client] ran [update]. *)
Definition updated : State DB :=
  {| world := {| executed := ["UPDATE t SET x=1"]; recorded := None |};
     trace := [PgxExec ctx "UPDATE t SET x=1" []] |}.

Definition insert_tag : Tag := {| tag_verb := "INSERT"; tag_rows := 1 |}.

Definition two_statements : string :=
  "INSERT INTO t VALUES (1); INSERT INTO u".

(** A pgx client whose [QueryContext] returns neither rows nor an error. *)
Definition pgx_client_no_rows : Pgx DB Tag :=
  {| Pgx_QueryContext := fun _ q _ db => ((None, None), run q db);
     Pgx_Exec := fun _ q _ db => ((Tag_zero, None), run q db);
     Pgx_QueryRow := fun _ q _ db => (row, run q db) |}.

(** A pgx client whose [QueryContext] fails and still hands back a
    cursor. *)
Definition pgx_client_rows_and_error : Pgx DB Tag :=
  {| Pgx_QueryContext := fun _ q _ db =>
       ((Some (pgx_cursor (Some id_name)), Some second_failed), run q db);
     Pgx_Exec := fun _ q _ db => ((Tag_zero, Some second_failed), run q db);
     Pgx_QueryRow := fun _ q _ db => (row, run q db) |}.

(** A cursor over the rows kept in [executed], the current one first;
    before the first [Next] an empty text stands in front.  [Next] moves to
    the following row if there is one, [Scan] fails away from a row. *)
Definition counting_cursor : pgx_Rows DB :=
  {| pgxRows_Close := fun db =>
       (tt, {| executed := []; recorded := recorded db |});
     pgxRows_Err := fun db => (recorded db, db);
     pgxRows_Next := fun db =>
       match executed db with
       | _ :: (_ :: _) as rest =>
           (true, {| executed := rest; recorded := recorded db |})
       | _ => (false, {| executed := []; recorded := recorded db |})
       end;
     pgxRows_Scan := fun _ db =>
       match executed db with
       | [] => (Some (errors_New "no rows"), db)
       | current :: _ =>
           (if String.eqb current "" then Some (errors_New "no rows")
            else None, db)
       end;
     pgxRows_FieldDescriptions := fun db => (Some id_name, db) |}.

Definition select_text : string := "SELECT id, name FROM t WHERE id = $1".

End Fixture.

Section Properties.

Context {W CommandTag : Type}.
Variable RowsAffected : CommandTag -> Z.

Implicit Types (st : State W) (ctx : Context) (s : Sqlizer).
Implicit Types (query : string) (args : list any) (e : error_value).

(** The state after one more recorded call. *)
Definition after (ev : Event) st : State W :=
  {| world := world st; trace := trace st ++ [ev] |}.

(** The non-cancellable single-row query as the specification words it:
    what the native cancellable [QueryRow] returns under the default
    context, the one with no deadline and no cancellation signal. *)
Definition QueryRow_spec (r : pgxRunner W CommandTag) query args (w : W)
    : RowScanner W * W :=
  let (row, w') := Pgx_QueryRow (pgx r) context_Background query args w in
  (RowScanner_native row, w').

Lemma bind_Returned {A B : Type} (m : M W A) (k : A -> M W B) st a st' :
  m st = Returned a st' -> (m ≫= k) st = k a st'.
Proof. intros Hm. unfold mbind, M_bind. now rewrite Hm. Qed.

Lemma bind_Panicked {A B : Type} (m : M W A) (k : A -> M W B) st st' :
  m st = Panicked st' -> (m ≫= k) st = Panicked st'.
Proof. intros Hm. unfold mbind, M_bind. now rewrite Hm. Qed.

Lemma call_Returned {A : Type} (ev : Event) (f : W -> A * W) st :
  call ev f st =
  Returned (f (world st)).1
           {| world := (f (world st)).2; trace := trace st ++ [ev] |}.
Proof. unfold call. now destruct (f (world st)). Qed.

Lemma invoke_after {A : Type} (ev : Event) (m : M W A) st :
  invoke ev m st = m (after ev st).
Proof. reflexivity. Qed.

(** C2: when [ToSql] fails, [ExecContextWith] and [QueryContextWith]
    return the nil result, respectively the nil cursor, with exactly the
    build error; the state is untouched: no method of the client was called
    and its world did not move. *)
Theorem build_error_short_circuits
    ctx (db : ExecerContext W CommandTag) (qdb : QueryerContext W)
    s query args e st :
  ToSql s = (query, args, Some e) ->
  ExecContextWith ctx db s st = Returned (Result_nil, Some e) st
  /\ QueryContextWith ctx qdb s st = Returned (Rows_nil, Some e) st.
Proof.
  intros Hs. unfold ExecContextWith, QueryContextWith. rewrite Hs.
  split; reflexivity.
Qed.

(** C3: when [ToSql] succeeds, [ExecContextWith] calls [ExecContext] once,
    with the caller's context and the text and arguments [ToSql] made, and
    returns what that call returns.  Behind the standard adapter the native
    client receives the same three values and its result and error come
    back as they are; behind the pgx adapter the native [Exec] receives
    them, its error comes back as it is and its command tag comes back
    inside a [commandTagWrapper]. *)
Theorem ExecContextWith_forwards
    ctx (db : ExecerContext W CommandTag)
    (c : StdSqlCtx W CommandTag) (p : Pgx W CommandTag) s query args st :
  ToSql s = (query, args, None) ->
  ExecContextWith ctx db s st =
    ExecContext db ctx query args (after (CallExecContext ctx query args) st)
  /\ ExecContextWith ctx (WrapStdSqlCtx c) s st =
       Returned (Std_ExecContext c ctx query args (world st)).1
         {| world := (Std_ExecContext c ctx query args (world st)).2;
            trace := trace st ++ [CallExecContext ctx query args;
                                  StdExecContext ctx query args] |}
  /\ ExecContextWith ctx (WrapPgx p) s st =
       Returned
         (Result_commandTag
            {| commandTag := (Pgx_Exec p ctx query args (world st)).1.1 |},
          (Pgx_Exec p ctx query args (world st)).1.2)
         {| world := (Pgx_Exec p ctx query args (world st)).2;
            trace := trace st ++ [CallExecContext ctx query args;
                                  PgxExec ctx query args] |}.
Proof.
  intros Hs. unfold ExecContextWith. rewrite Hs. split; [reflexivity |].
  split.
  - rewrite invoke_after. cbn [WrapStdSqlCtx Runner_Execer ExecContext].
    unfold stdsqlCtxRunner_ExecContext. rewrite call_Returned. cbn.
    now rewrite <- app_assoc.
  - rewrite invoke_after. cbn [WrapPgx Runner_Execer ExecContext].
    unfold pgxRunner_ExecContext.
    erewrite bind_Returned by apply call_Returned. cbn.
    destruct (Pgx_Exec p ctx query args (world st)) as [[ct err] w]. cbn.
    now rewrite <- app_assoc.
Qed.

(** ** The pgx execution outcome *)

Lemma pgxRunner_ExecContext_Returned
    (r : pgxRunner W CommandTag) ctx query args st :
  pgxRunner_ExecContext r ctx query args st =
    Returned
      (Result_commandTag
         {| commandTag := (Pgx_Exec (pgx r) ctx query args (world st)).1.1 |},
       (Pgx_Exec (pgx r) ctx query args (world st)).1.2)
      {| world := (Pgx_Exec (pgx r) ctx query args (world st)).2;
         trace := trace st ++ [PgxExec ctx query args] |}.
Proof.
  unfold pgxRunner_ExecContext.
  erewrite bind_Returned by apply call_Returned.
  now destruct (Pgx_Exec (pgx r) ctx query args (world st)) as [[ct err] w].
Qed.

(** C4: on every result the pgx adapter's [ExecContext] returns,
    [LastInsertId] returns the error "LastInsertId is not supported by
    pgx"; the error is never nil. *)
Theorem pgx_LastInsertId_unsupported
    (r : pgxRunner W CommandTag) ctx query args st res err st' (st2 : State W) :
  pgxRunner_ExecContext r ctx query args st = Returned (res, err) st' ->
  exists unsupported,
    sql_Result_LastInsertId res st2 = Returned (0, Some unsupported) st2
    /\ unsupported = errors_New "LastInsertId is not supported by pgx".
Proof.
  rewrite pgxRunner_ExecContext_Returned. intros Hret.
  injection Hret as <- _ _. eexists. split; reflexivity.
Qed.

(** C5: on every result the pgx adapter's [ExecContext] returns,
    [RowsAffected] returns the affected-row count of the command tag the
    native [Exec] returned, with a nil error. *)
Theorem pgx_RowsAffected_succeeds
    (r : pgxRunner W CommandTag) ctx query args st res err st' (st2 : State W) :
  pgxRunner_ExecContext r ctx query args st = Returned (res, err) st' ->
  sql_Result_RowsAffected RowsAffected res st2 =
    Returned
      (RowsAffected (Pgx_Exec (pgx r) ctx query args (world st)).1.1, None)
      st2.
Proof.
  rewrite pgxRunner_ExecContext_Returned. intros Hret.
  injection Hret as <- _ _. reflexivity.
Qed.

(** C10: when the native [Exec] returns a non-nil error, the pgx adapter's
    [ExecContext] returns that error with a non-nil result: the
    [commandTagWrapper] around the command tag [Exec] returned, whatever
    that tag is. *)
Theorem pgx_ExecContext_error_keeps_wrapper
    (r : pgxRunner W CommandTag) ctx query args st ct e w :
  Pgx_Exec (pgx r) ctx query args (world st) = ((ct, Some e), w) ->
  pgxRunner_ExecContext r ctx query args st =
    Returned (Result_commandTag {| commandTag := ct |}, Some e)
      {| world := w; trace := trace st ++ [PgxExec ctx query args] |}
  /\ Result_commandTag {| commandTag := ct |} <> Result_nil.
Proof.
  intros Hexec. rewrite pgxRunner_ExecContext_Returned, Hexec.
  split; [reflexivity | discriminate].
Qed.

(** ** The synthesized non-cancellable query *)

(** C6: the pgx adapter's [QueryRow] returns what the native cancellable
    [QueryRow] returns under [context.Background()], after that one native
    call; it is the adapter's own [QueryRowContext] at that context, which
    has no deadline and no cancellation signal. *)
Theorem pgx_QueryRow_is_background_QueryRowContext
    (r : pgxRunner W CommandTag) query args st :
  pgxRunner_QueryRow r query args st =
    Returned (QueryRow_spec r query args (world st)).1
      {| world := (QueryRow_spec r query args (world st)).2;
         trace := trace st ++ [PgxQueryRow context_Background query args] |}
  /\ pgxRunner_QueryRow r query args st =
       pgxRunner_QueryRowContext r context_Background query args st
  /\ Context_Deadline context_Background = None
  /\ Context_cancellable context_Background = false.
Proof.
  split; [| repeat split].
  unfold pgxRunner_QueryRow, QueryRow_spec.
  erewrite bind_Returned by apply call_Returned.
  now destruct (Pgx_QueryRow (pgx r) context_Background query args (world st)).
Qed.

(** ** Column introspection *)

Lemma slice_store_middle (done rest : list string) (old v : string) :
  slice_store (done ++ old :: rest) (length done) v =
    Some (done ++ v :: rest).
Proof.
  unfold slice_store. rewrite decide_True.
  - f_equal. rewrite insert_app_r_alt by lia.
    now replace (length done - length done)%nat with 0%nat by lia.
  - rewrite length_app. cbn. lia.
Qed.

(** The loop invariant: with the names of the fields seen so far in
    [done], the loop fills the remaining slots in order. *)
Lemma range_fields_invariant (fields : list FieldDescription) :
  forall done rest : list string,
    length rest = length fields ->
    range_fields (length done) fields (done ++ rest) =
      Some (done ++ (Name <$> fields)).
Proof.
  induction fields as [| f fields IH]; intros done rest Hlen.
  - destruct rest; [reflexivity | discriminate].
  - destruct rest as [| old rest]; [discriminate |].
    cbn [range_fields]. rewrite slice_store_middle.
    replace (S (length done)) with (length (done ++ [Name f]))
      by (rewrite length_app; cbn; lia).
    replace (done ++ Name f :: rest) with ((done ++ [Name f]) ++ rest)
      by now rewrite <- app_assoc.
    rewrite IH by (cbn in Hlen; lia).
    now rewrite <- app_assoc.
Qed.

Lemma range_fields_names (fields : list FieldDescription) :
  range_fields 0 fields (replicate (length fields) "") =
    Some (Name <$> fields).
Proof.
  apply (range_fields_invariant fields [] (replicate (length fields) "")).
  apply length_replicate.
Qed.

Lemma PgxRowsWrapper_Columns_Returned (rows : pgx_Rows W) st :
  PgxRowsWrapper_Columns {| PgxRows := Some rows |} st =
    Returned
      match (pgxRows_FieldDescriptions rows (world st)).1 with
      | None => (None, Some (errors_New "no field descriptions"))
      | Some fields => (Some (Name <$> fields), None)
      end
      {| world := (pgxRows_FieldDescriptions rows (world st)).2;
         trace := trace st ++ [NativeFieldDescriptions] |}.
Proof.
  unfold PgxRowsWrapper_Columns, deref. cbn [PgxRows].
  erewrite bind_Returned by apply call_Returned.
  destruct (pgxRows_FieldDescriptions rows (world st)) as [[fields |] w];
    cbn [fst snd]; [| reflexivity].
  now rewrite range_fields_names.
Qed.

(** C7: [Columns] on a pgx cursor reads the field descriptions once.  When
    the list is nil it returns no column list and the error "no field
    descriptions"; otherwise it returns, with a nil error, one name per
    field description, in the order of the list. *)
Theorem PgxRowsWrapper_Columns_correct (rows : pgx_Rows W) st :
  exists cols err,
    PgxRowsWrapper_Columns {| PgxRows := Some rows |} st =
      Returned (cols, err)
        {| world := (pgxRows_FieldDescriptions rows (world st)).2;
           trace := trace st ++ [NativeFieldDescriptions] |}
    /\ match (pgxRows_FieldDescriptions rows (world st)).1 with
       | None =>
           cols = None /\ err = Some (errors_New "no field descriptions")
       | Some fields =>
           err = None
           /\ exists names : list string,
                cols = Some names
                /\ length names = length fields
                /\ forall i : nat, names !! i = Name <$> fields !! i
       end.
Proof.
  rewrite PgxRowsWrapper_Columns_Returned.
  destruct (pgxRows_FieldDescriptions rows (world st)) as [[fields |] w];
    cbn [fst snd].
  - exists (Some (Name <$> fields)), None. split; [reflexivity |].
    split; [reflexivity |]. exists (Name <$> fields).
    split; [reflexivity |]. split.
    + apply length_fmap.
    + intros i. apply list_lookup_fmap.
  - exists None, (Some (errors_New "no field descriptions")). now repeat split.
Qed.

(** C9: when the field-description list is non-nil and empty, [Columns]
    returns an empty, non-nil column list and a nil error; and whenever
    [Columns] returns a non-nil error, the field-description list was
    nil. *)
Theorem PgxRowsWrapper_Columns_empty (rows : pgx_Rows W) st w :
  pgxRows_FieldDescriptions rows (world st) = (Some [], w) ->
  PgxRowsWrapper_Columns {| PgxRows := Some rows |} st =
    Returned (Some [], None)
      {| world := w; trace := trace st ++ [NativeFieldDescriptions] |}
  /\ forall (rows' : pgx_Rows W) st1 cols e st2,
       PgxRowsWrapper_Columns {| PgxRows := Some rows' |} st1 =
         Returned (cols, Some e) st2 ->
       (pgxRows_FieldDescriptions rows' (world st1)).1 = None.
Proof.
  intros Hfd. split.
  - now rewrite PgxRowsWrapper_Columns_Returned, Hfd.
  - intros rows' st1 cols e st2. rewrite PgxRowsWrapper_Columns_Returned.
    destruct (pgxRows_FieldDescriptions rows' (world st1)) as [[fields |] w'];
      cbn [fst snd]; [discriminate | reflexivity].
Qed.

(** ** Closing a standard cursor *)

(** C8: [Close] on the standard cursor wrapper calls the native [Close]
    once and returns nothing: the native error is dropped, whatever it is.
    A later [Err] on the wrapper returns what the native [Err] returns in
    the world the native [Close] left, so the close error shows there only
    if the client recorded it. *)
Theorem StdRowsWrapper_Close_discards (rows : sql_Rows W) st :
  let r := {| StdRows := Some rows |} in
  let closed :=
    {| world := (sqlRows_Close rows (world st)).2;
       trace := trace st ++ [NativeClose] |} in
  StdRowsWrapper_Close r st = Returned tt closed
  /\ (_ ← StdRowsWrapper_Close r; StdRowsWrapper_Err r) st =
       Returned (sqlRows_Err rows (world closed)).1
         {| world := (sqlRows_Err rows (world closed)).2;
            trace := trace st ++ [NativeClose; NativeErr] |}.
Proof.
  intros r closed.
  assert (Hclose : StdRowsWrapper_Close r st = Returned tt closed).
  { unfold StdRowsWrapper_Close, deref, r. cbn [StdRows].
    now erewrite bind_Returned by apply call_Returned. }
  split; [exact Hclose |].
  erewrite bind_Returned by exact Hclose.
  unfold StdRowsWrapper_Err, deref, r. cbn [StdRows].
  rewrite call_Returned. unfold closed. cbn. now rewrite <- app_assoc.
Qed.

(** ** The single-row helper *)

(** A Row carrying a build error returns it from [Scan] and leaves the
    scanner underneath alone. *)
Lemma Row_Scan_deferred_error (inner : RowScanner W) e dest st :
  RowScanner_Scan (RowScanner_Row inner (Some e)) dest st =
    Returned (Some e) st.
Proof. reflexivity. Qed.

(** [QueryRowContextWith] calls [QueryRowContext] whatever [ToSql]
    returned. *)
Lemma QueryRowContextWith_always_calls
    ctx (db : QueryRowerContext W) s query args err st :
  ToSql s = (query, args, err) ->
  QueryRowContextWith ctx db s st =
    (inner ← QueryRowContext db ctx query args;
     mret (RowScanner_Row inner err))
      (after (CallQueryRowContext ctx query args) st).
Proof.
  intros Hs. unfold QueryRowContextWith. now rewrite Hs.
Qed.

End Properties.

(** * The rest of the adapters: queries, single rows and cursors *)

Section Queries.

Context {W CommandTag : Type}.

Implicit Types (st : State W) (ctx : Context) (s : Sqlizer).
Implicit Types (query : string) (args : list any) (e : error_value).

Lemma pgxRunner_QueryContext_Returned
    (r : pgxRunner W CommandTag) ctx query args st :
  pgxRunner_QueryContext r ctx query args st =
    Returned
      match (Pgx_QueryContext (pgx r) ctx query args (world st)).1.2 with
      | Some e => (Rows_nil, Some e)
      | None =>
          (Rows_Pgx
             {| PgxRows :=
                  (Pgx_QueryContext (pgx r) ctx query args (world st)).1.1 |},
           None)
      end
      {| world := (Pgx_QueryContext (pgx r) ctx query args (world st)).2;
         trace := trace st ++ [PgxQueryContext ctx query args] |}.
Proof.
  unfold pgxRunner_QueryContext.
  erewrite bind_Returned by apply call_Returned.
  now destruct (Pgx_QueryContext (pgx r) ctx query args (world st))
    as [[rows [e |]] w].
Qed.

Lemma stdsqlCtxRunner_QueryContext_Returned
    (r : stdsqlCtxRunner W CommandTag) ctx query args st :
  stdsqlCtxRunner_QueryContext r ctx query args st =
    Returned
      match (Std_QueryContext (stdSqlCtx r) ctx query args (world st)).1.2
      with
      | Some e => (Rows_nil, Some e)
      | None =>
          (Rows_Std
             {| StdRows :=
                  (Std_QueryContext (stdSqlCtx r) ctx query args
                     (world st)).1.1 |},
           None)
      end
      {| world := (Std_QueryContext (stdSqlCtx r) ctx query args (world st)).2;
         trace := trace st ++ [StdQueryContext ctx query args] |}.
Proof.
  unfold stdsqlCtxRunner_QueryContext.
  erewrite bind_Returned by apply call_Returned.
  now destruct (Std_QueryContext (stdSqlCtx r) ctx query args (world st))
    as [[rows [e |]] w].
Qed.

Lemma trace_two (st : State W) (w : W) (ev1 ev2 : Event) :
  {| world := w; trace := (trace st ++ [ev1]) ++ [ev2] |} =
  {| world := w; trace := trace st ++ [ev1; ev2] |}.
Proof. now rewrite <- app_assoc. Qed.

(** X1: when [ToSql] succeeds, [QueryContextWith] over the pgx adapter
    makes one native [QueryContext] call with the caller's context and the
    text and arguments of [ToSql].  A native error comes back as it is with
    a nil cursor, whatever rows came with it; without an error the native
    rows come back inside a [PgxRowsWrapper]. *)
Theorem QueryContextWith_pgx_forwards
    ctx (p : Pgx W CommandTag) s query args st rows err w :
  ToSql s = (query, args, None) ->
  Pgx_QueryContext p ctx query args (world st) = ((rows, err), w) ->
  QueryContextWith ctx (WrapPgx p) s st =
    Returned
      match err with
      | Some e => (Rows_nil, Some e)
      | None => (Rows_Pgx {| PgxRows := rows |}, None)
      end
      {| world := w;
         trace := trace st ++ [CallQueryContext ctx query args;
                               PgxQueryContext ctx query args] |}.
Proof.
  intros Hs Hq. unfold QueryContextWith. rewrite Hs, invoke_after.
  cbn [WrapPgx Runner_Queryer QueryContext].
  rewrite pgxRunner_QueryContext_Returned. cbn [pgx after world trace].
  rewrite Hq. cbn [fst snd]. now rewrite trace_two.
Qed.

(** X2: the same through the standard adapter: one native [QueryContext]
    call with the same three values; a native error comes back with a nil
    cursor, and otherwise the [*sql.Rows] comes back inside a
    [StdRowsWrapper]. *)
Theorem QueryContextWith_std_forwards
    ctx (c : StdSqlCtx W CommandTag) s query args st rows err w :
  ToSql s = (query, args, None) ->
  Std_QueryContext c ctx query args (world st) = ((rows, err), w) ->
  QueryContextWith ctx (WrapStdSqlCtx c) s st =
    Returned
      match err with
      | Some e => (Rows_nil, Some e)
      | None => (Rows_Std {| StdRows := rows |}, None)
      end
      {| world := w;
         trace := trace st ++ [CallQueryContext ctx query args;
                               StdQueryContext ctx query args] |}.
Proof.
  intros Hs Hq. unfold QueryContextWith. rewrite Hs, invoke_after.
  cbn [WrapStdSqlCtx Runner_Queryer QueryContext].
  rewrite stdsqlCtxRunner_QueryContext_Returned.
  cbn [stdSqlCtx after world trace].
  rewrite Hq. cbn [fst snd]. now rewrite trace_two.
Qed.


(** X4: when the native [QueryContext] returns nil rows and a nil error,
    the pgx adapter returns a non-nil cursor with a nil error, and every
    method called on that cursor panics. *)
Theorem pgx_QueryContext_nil_rows_panics
    (r : pgxRunner W CommandTag) ctx query args st w :
  Pgx_QueryContext (pgx r) ctx query args (world st) = ((None, None), w) ->
  exists rows st',
    pgxRunner_QueryContext r ctx query args st = Returned (rows, None) st'
    /\ rows <> Rows_nil
    /\ forall (op : CursorOp) (st2 : State W),
         Rows_do rows op st2 = Panicked st2.
Proof.
  intros Hq. rewrite pgxRunner_QueryContext_Returned, Hq. cbn [fst snd].
  eexists _, _. split; [reflexivity |]. split; [discriminate |].
  intros op st2. now destruct op.
Qed.

(** X5: for every statement, built or not, [QueryRowContextWith] over
    either adapter makes one native single-row call with the caller's
    context and whatever text and arguments [ToSql] returned, and returns a
    non-nil Row holding the native row and the error of [ToSql]. *)
Theorem QueryRowContextWith_wraps_native_row
    ctx (p : Pgx W CommandTag) (c : StdSqlCtx W CommandTag)
    s query args err st :
  ToSql s = (query, args, err) ->
  QueryRowContextWith ctx (WrapPgx p) s st =
    Returned
      (RowScanner_Row
         (RowScanner_native (Pgx_QueryRow p ctx query args (world st)).1) err)
      {| world := (Pgx_QueryRow p ctx query args (world st)).2;
         trace := trace st ++ [CallQueryRowContext ctx query args;
                               PgxQueryRow ctx query args] |}
  /\ QueryRowContextWith ctx (WrapStdSqlCtx c) s st =
       Returned
         (RowScanner_Row
            (RowScanner_native
               (Std_QueryRowContext c ctx query args (world st)).1) err)
         {| world := (Std_QueryRowContext c ctx query args (world st)).2;
            trace := trace st ++ [CallQueryRowContext ctx query args;
                                  StdQueryRowContext ctx query args] |}.
Proof.
  intros Hs. unfold QueryRowContextWith. rewrite Hs. split.
  - erewrite bind_Returned.
    2:{ rewrite invoke_after.
        cbn [WrapPgx Runner_QueryRower QueryRowContext].
        unfold pgxRunner_QueryRowContext.
        erewrite bind_Returned by apply call_Returned. reflexivity. }
    cbn. now rewrite trace_two.
  - erewrite bind_Returned.
    2:{ rewrite invoke_after.
        cbn [WrapStdSqlCtx Runner_QueryRower QueryRowContext].
        unfold stdsqlCtxRunner_QueryRowContext.
        erewrite bind_Returned by apply call_Returned. reflexivity. }
    cbn. now rewrite trace_two.
Qed.

(** X6: a driver result that the standard client returns from
    [ExecContext] reaches the caller of [ExecContextWith] as it is: its
    [LastInsertId] and [RowsAffected] return the driver's own pairs, and
    the client's error comes along unchanged. *)
Theorem std_result_forwards_driver_pairs
    (RowsAffected : CommandTag -> Z)
    ctx (c : StdSqlCtx W CommandTag) s query args st
    (r : driver_Result) err w :
  ToSql s = (query, args, None) ->
  Std_ExecContext c ctx query args (world st) = ((Result_driver r, err), w) ->
  (res ← ExecContextWith ctx (WrapStdSqlCtx c) s;
   last ← sql_Result_LastInsertId res.1;
   affected ← sql_Result_RowsAffected RowsAffected res.1;
   mret (last, affected, res.2)) st =
  Returned (driver_LastInsertId r, driver_RowsAffected r, err)
    {| world := w;
       trace := trace st ++ [CallExecContext ctx query args;
                             StdExecContext ctx query args] |}.
Proof.
  intros Hs Hexec.
  erewrite bind_Returned.
  2:{ unfold ExecContextWith. rewrite Hs, invoke_after.
      cbn [WrapStdSqlCtx Runner_Execer ExecContext].
      unfold stdsqlCtxRunner_ExecContext. rewrite call_Returned.
      cbn [stdSqlCtx after world trace]. rewrite Hexec. reflexivity. }
  cbn. now rewrite trace_two.
Qed.

(** X7: the standard adapter's context-free [QueryRow] calls the client's
    context-free [QueryRow] and no context method; scanning the scanner it
    returns is scanning the native row. *)
Theorem std_QueryRow_then_Scan
    (r : stdsqlCtxRunner W CommandTag) query args dest st :
  (row ← stdsqlCtxRunner_QueryRow r query args; RowScanner_Scan row dest) st =
  let (row, w) := Std_QueryRow (stdSqlCtx r) query args (world st) in
  Returned (nativeRow_Scan row dest w).1
    {| world := (nativeRow_Scan row dest w).2;
       trace := trace st ++ [StdQueryRow query args; NativeScan dest] |}.
Proof.
  erewrite bind_Returned.
  2:{ unfold stdsqlCtxRunner_QueryRow.
      erewrite bind_Returned by apply call_Returned. reflexivity. }
  destruct (Std_QueryRow (stdSqlCtx r) query args (world st)) as [row w].
  cbn [RowScanner_Scan fst snd]. rewrite call_Returned. cbn.
  now rewrite trace_two.
Qed.


(** ** Driving a cursor through its wrapper *)

Lemma Rows_do_pgx (rows : pgx_Rows W) (op : CursorOp) st :
  Rows_do (Rows_Pgx {| PgxRows := Some rows |}) op st =
    Returned (pgx_Rows_do rows op (world st)).1
      {| world := (pgx_Rows_do rows op (world st)).2;
         trace := trace st ++ [op_Event NativeFieldDescriptions op] |}.
Proof.
  destruct op; cbn [Rows_do op_Event pgx_Rows_do].
  - erewrite bind_Returned by (cbn; unfold PgxRowsWrapper_Next, deref; cbn;
                               apply call_Returned).
    now destruct (pgxRows_Next rows (world st)).
  - erewrite bind_Returned by (cbn; unfold PgxRowsWrapper_Scan, deref; cbn;
                               apply call_Returned).
    now destruct (pgxRows_Scan rows dest (world st)).
  - erewrite bind_Returned by (cbn; unfold PgxRowsWrapper_Err, deref; cbn;
                               apply call_Returned).
    now destruct (pgxRows_Err rows (world st)).
  - erewrite bind_Returned by (cbn; unfold PgxRowsWrapper_Close, deref; cbn;
                               apply call_Returned).
    now destruct (pgxRows_Close rows (world st)).
  - erewrite bind_Returned
      by (cbn [Rows_Columns]; apply PgxRowsWrapper_Columns_Returned).
    now destruct (pgxRows_FieldDescriptions rows (world st)) as [[fields |] w].
Qed.

Lemma Rows_do_std (rows : sql_Rows W) (op : CursorOp) st :
  Rows_do (Rows_Std {| StdRows := Some rows |}) op st =
    Returned (sql_Rows_do rows op (world st)).1
      {| world := (sql_Rows_do rows op (world st)).2;
         trace := trace st ++ [op_Event NativeColumns op] |}.
Proof.
  destruct op; cbn [Rows_do op_Event sql_Rows_do].
  - erewrite bind_Returned by (cbn; unfold StdRowsWrapper_Next, deref; cbn;
                               apply call_Returned).
    now destruct (sqlRows_Next rows (world st)).
  - erewrite bind_Returned by (cbn; unfold StdRowsWrapper_Scan, deref; cbn;
                               apply call_Returned).
    now destruct (sqlRows_Scan rows dest (world st)).
  - erewrite bind_Returned by (cbn; unfold StdRowsWrapper_Err, deref; cbn;
                               apply call_Returned).
    now destruct (sqlRows_Err rows (world st)).
  - erewrite bind_Returned.
    2:{ cbn [Rows_Close]. unfold StdRowsWrapper_Close, deref. cbn [StdRows].
        erewrite bind_Returned by apply call_Returned. reflexivity. }
    now destruct (sqlRows_Close rows (world st)).
  - erewrite bind_Returned by (cbn; unfold StdRowsWrapper_Columns, deref; cbn;
                               apply call_Returned).
    now destruct (sqlRows_Columns rows (world st)).
Qed.

(** Any cursor whose single calls follow a native step function follows it
    over a whole sequence of calls. *)
Lemma Rows_drive_follows (rows : Rows W) (step : CursorOp -> W -> Observed * W)
    (event : CursorOp -> Event) :
  (forall op st,
     Rows_do rows op st =
       Returned (step op (world st)).1
         {| world := (step op (world st)).2;
            trace := trace st ++ [event op] |}) ->
  forall ops st,
    Rows_drive rows ops st =
      Returned (native_drive step ops (world st)).1
        {| world := (native_drive step ops (world st)).2;
           trace := trace st ++ (event <$> ops) |}.
Proof.
  intros Hdo ops. induction ops as [| op ops IH]; intros st.
  - cbn. rewrite app_nil_r. now destruct st.
  - cbn [Rows_drive native_drive].
    erewrite bind_Returned by apply Hdo.
    erewrite bind_Returned by apply IH.
    cbn [world trace].
    destruct (step op (world st)) as [seen w]. cbn [fst snd].
    destruct (native_drive step ops w) as [later w']. cbn [fst snd fmap list_fmap].
    unfold mret, M_ret. now rewrite <- app_assoc.
Qed.

(** X9: for every sequence of [Next], [Scan], [Err], [Close] and [Columns]
    calls on a pgx cursor wrapper over non-nil rows, the wrapper never
    panics, makes exactly one native call per call, in the same order, and
    the caller sees what the native cursor returns, with [Columns] read
    from the field descriptions. *)
Theorem pgx_cursor_transparent
    (rows : pgx_Rows W) (ops : list CursorOp) st :
  Rows_drive (Rows_Pgx {| PgxRows := Some rows |}) ops st =
    Returned (native_drive (pgx_Rows_do rows) ops (world st)).1
      {| world := (native_drive (pgx_Rows_do rows) ops (world st)).2;
         trace := trace st ++ (op_Event NativeFieldDescriptions <$> ops) |}.
Proof. apply Rows_drive_follows. intros op st'. apply Rows_do_pgx. Qed.

(** X10: the same for a standard cursor wrapper over a non-nil
    [*sql.Rows]: one native call per call, in order, and the native results
    as they are, except that the error of the native [Close] is not
    seen. *)
Theorem std_cursor_transparent
    (rows : sql_Rows W) (ops : list CursorOp) st :
  Rows_drive (Rows_Std {| StdRows := Some rows |}) ops st =
    Returned (native_drive (sql_Rows_do rows) ops (world st)).1
      {| world := (native_drive (sql_Rows_do rows) ops (world st)).2;
         trace := trace st ++ (op_Event NativeColumns <$> ops) |}.
Proof. apply Rows_drive_follows. intros op st'. apply Rows_do_std. Qed.



End Queries.

(** ** The code on the scripted client *)

Import Fixture.

(** The scenario of an update reporting three affected rows. *)
Example update_three_rows :
  (res ← ExecContextWith ctx (WrapPgx (pgx_client 3)) update;
   affected ← sql_Result_RowsAffected tag_rows res.1;
   last ← sql_Result_LastInsertId res.1;
   mret (affected, last.2)) start =
  Returned ((3, None),
            Some (errors_New "LastInsertId is not supported by pgx"))
    {| world := {| executed := ["UPDATE t SET x=1"]; recorded := None |};
       trace := [CallExecContext ctx "UPDATE t SET x=1" [];
                 PgxExec ctx "UPDATE t SET x=1" []] |}.
Proof. reflexivity. Qed.

(** The standard adapter forwards the driver's own result. *)
Example std_last_insert_id :
  (res ← ExecContextWith ctx (WrapStdSqlCtx std_client) update;
   sql_Result_LastInsertId (CommandTag := Tag) res.1) start =
  Returned (7, None)
    {| world := {| executed := ["UPDATE t SET x=1"]; recorded := None |};
       trace := [CallExecContext ctx "UPDATE t SET x=1" [];
                 StdExecContext ctx "UPDATE t SET x=1" []] |}.
Proof. reflexivity. Qed.

Example columns_id_name :
  PgxRowsWrapper_Columns {| PgxRows := Some (pgx_cursor (Some id_name)) |}
      start =
    Returned (Some ["id"; "name"], None)
      {| world := world start; trace := [NativeFieldDescriptions] |}.
Proof. reflexivity. Qed.

Example columns_nil_fields :
  PgxRowsWrapper_Columns {| PgxRows := Some (pgx_cursor None) |} start =
    Returned (None, Some (errors_New "no field descriptions"))
      {| world := world start; trace := [NativeFieldDescriptions] |}.
Proof. reflexivity. Qed.

Example columns_nil_cursor :
  PgxRowsWrapper_Columns {| PgxRows := None |} start = Panicked start.
Proof. reflexivity. Qed.

(** A close error shows in [Err] when the client recorded it, and nowhere
    when it did not. *)
Example close_then_err_recorded :
  (_ ← StdRowsWrapper_Close {| StdRows := Some (sql_cursor true) |};
   StdRowsWrapper_Err {| StdRows := Some (sql_cursor true) |}) start =
  Returned (Some close_failed)
    {| world := {| executed := []; recorded := Some close_failed |};
       trace := [NativeClose; NativeErr] |}.
Proof. reflexivity. Qed.

Example close_then_err_lost :
  (_ ← StdRowsWrapper_Close {| StdRows := Some (sql_cursor false) |};
   StdRowsWrapper_Err {| StdRows := Some (sql_cursor false) |}) start =
  Returned None
    {| world := world start; trace := [NativeClose; NativeErr] |}.
Proof. reflexivity. Qed.

Example query_row_runs_the_query :
  (row ← QueryRowContextWith ctx (WrapPgx (pgx_client 0)) select_by_id;
   RowScanner_Scan row [any_nil; any_nil]) start =
  Returned None
    {| world := {| executed := ["SELECT id, name FROM t WHERE id = $1"];
                   recorded := None |};
       trace := [CallQueryRowContext ctx
                   "SELECT id, name FROM t WHERE id = $1" [any_int 7];
                 PgxQueryRow ctx
                   "SELECT id, name FROM t WHERE id = $1" [any_int 7];
                 NativeScan [any_nil; any_nil]] |}.
Proof. reflexivity. Qed.

(** C1: on a statement whose [ToSql] fails, [QueryRowContextWith] returns
    a non-nil Row whose [Scan] returns the build error, but it has called
    the client's [QueryRowContext] first, with the zero query text and nil
    arguments: the call is in the trace and the client ran it.  The sibling
    [ExecContextWith] returns on the same statement without any call. *)
Theorem QueryRowContextWith_build_error_calls_client :
  exists (inner : RowScanner DB) (st' : State DB),
    QueryRowContextWith ctx (WrapPgx (pgx_client 0)) unbuilt start =
      Returned (RowScanner_Row inner (Some build_failed)) st'
    /\ RowScanner_Row inner (Some build_failed) <> RowScanner_nil
    /\ RowScanner_Scan (RowScanner_Row inner (Some build_failed)) [] st' =
         Returned (Some build_failed) st'
    /\ trace st' = [CallQueryRowContext ctx "" []; PgxQueryRow ctx "" []]
    /\ executed (world st') = [""]
    /\ ExecContextWith ctx (WrapPgx (pgx_client 0)) unbuilt start =
         Returned (Result_nil, Some build_failed) start.
Proof.
  eexists _, _. split; [reflexivity |].
  split; [discriminate |]. repeat split.
Qed.

Lemma build_error_short_circuits_witness :
  ToSql unbuilt = ("", [], Some build_failed)
  /\ ExecContextWith ctx (WrapPgx (pgx_client 3)) unbuilt start =
       Returned (Result_nil, Some build_failed) start
  /\ QueryContextWith ctx (WrapStdSqlCtx std_client) unbuilt start =
       Returned (Rows_nil, Some build_failed) start.
Proof.
  split; [reflexivity |].
  apply (build_error_short_circuits ctx (WrapPgx (pgx_client 3))
           (WrapStdSqlCtx std_client) unbuilt "" [] build_failed start).
  reflexivity.
Defined.

Lemma ExecContextWith_forwards_witness :
  ToSql update = ("UPDATE t SET x=1", [], None)
  /\ ExecContextWith ctx (WrapPgx (pgx_client 3)) update start =
       Returned
         (Result_commandTag
            {| commandTag := {| tag_verb := "UPDATE"; tag_rows := 3 |} |},
          None)
         {| world := {| executed := ["UPDATE t SET x=1"]; recorded := None |};
            trace := [CallExecContext ctx "UPDATE t SET x=1" [];
                      PgxExec ctx "UPDATE t SET x=1" []] |}.
Proof.
  split; [reflexivity |].
  exact (proj2 (proj2
    (ExecContextWith_forwards ctx (WrapPgx (pgx_client 3)) std_client
       (pgx_client 3) update "UPDATE t SET x=1" [] start eq_refl))).
Defined.

Lemma pgx_LastInsertId_unsupported_witness :
  pgxRunner_ExecContext {| pgx := pgx_client 3 |} ctx "UPDATE t SET x=1" []
      start =
    Returned (Result_commandTag {| commandTag := update_tag |}, None) updated
  /\ exists unsupported,
       sql_Result_LastInsertId
           (Result_commandTag {| commandTag := update_tag |}) updated =
         Returned (0, Some unsupported) updated
       /\ unsupported = errors_New "LastInsertId is not supported by pgx".
Proof.
  split; [reflexivity |].
  apply (pgx_LastInsertId_unsupported {| pgx := pgx_client 3 |} ctx
           "UPDATE t SET x=1" [] start _ None updated updated).
  reflexivity.
Defined.

Lemma pgx_RowsAffected_succeeds_witness :
  pgxRunner_ExecContext {| pgx := pgx_client 3 |} ctx "UPDATE t SET x=1" []
      start =
    Returned (Result_commandTag {| commandTag := update_tag |}, None) updated
  /\ sql_Result_RowsAffected tag_rows
         (Result_commandTag {| commandTag := update_tag |}) updated =
       Returned (3, None) updated.
Proof.
  split; [reflexivity |].
  apply (pgx_RowsAffected_succeeds tag_rows {| pgx := pgx_client 3 |} ctx
           "UPDATE t SET x=1" [] start _ None updated updated).
  reflexivity.
Defined.

Lemma PgxRowsWrapper_Columns_empty_witness :
  pgxRows_FieldDescriptions (pgx_cursor (Some [])) (world start) =
    (Some [], world start)
  /\ PgxRowsWrapper_Columns {| PgxRows := Some (pgx_cursor (Some [])) |}
         start =
       Returned (Some [], None)
         {| world := world start; trace := [NativeFieldDescriptions] |}.
Proof.
  split; [reflexivity |].
  exact (proj1 (PgxRowsWrapper_Columns_empty (pgx_cursor (Some [])) start
                  (world start) eq_refl)).
Defined.

Lemma pgx_ExecContext_error_keeps_wrapper_witness :
  Pgx_Exec pgx_client_failing ctx two_statements [] (world start) =
    ((insert_tag, Some second_failed), run two_statements (world start))
  /\ pgxRunner_ExecContext {| pgx := pgx_client_failing |} ctx
         two_statements [] start =
       Returned
         (Result_commandTag {| commandTag := insert_tag |},
          Some second_failed)
         {| world := run two_statements (world start);
            trace := [PgxExec ctx two_statements []] |}.
Proof.
  split; [reflexivity |].
  exact (proj1 (pgx_ExecContext_error_keeps_wrapper
                  {| pgx := pgx_client_failing |} ctx two_statements [] start
                  insert_tag second_failed _ eq_refl)).
Defined.

(** C10 as first stated fails: the native [Exec] returns a non-nil error
    together with the tag of the statement that did run, and the result
    wraps that tag, not the zero-valued one. *)
Lemma pgx_ExecContext_error_tag_not_zero :
  exists (res : sql_Result Tag) (st' : State DB),
    (Pgx_Exec pgx_client_failing ctx two_statements [] (world start)).1.2 =
      Some second_failed
    /\ pgxRunner_ExecContext {| pgx := pgx_client_failing |} ctx
           two_statements [] start =
         Returned (res, Some second_failed) st'
    /\ res <> Result_commandTag {| commandTag := Tag_zero |}.
Proof.
  eexists _, _. split; [reflexivity |]. split; [reflexivity |].
  discriminate.
Qed.

(** ** Queries on the scripted client *)

(** Two rows to read: [Scan] fails before the first [Next], two [Next]
    calls succeed, the third one does not, and [Scan] fails after it. *)
Example drive_two_rows :
  Rows_drive (Rows_Pgx {| PgxRows := Some counting_cursor |})
      [OpColumns; OpScan []; OpNext; OpScan []; OpNext; OpScan []; OpNext;
       OpScan []; OpErr; OpClose]
      {| world := {| executed := [""; "row 1"; "row 2"]; recorded := None |};
         trace := [] |} =
    Returned
      [SawColumns (Some ["id"; "name"]) None;
       SawScan (Some (errors_New "no rows")); SawNext true; SawScan None;
       SawNext true; SawScan None; SawNext false;
       SawScan (Some (errors_New "no rows")); SawErr None; SawClose]
      {| world := {| executed := []; recorded := None |};
         trace := [NativeFieldDescriptions; NativeScan []; NativeNext;
                   NativeScan []; NativeNext; NativeScan []; NativeNext;
                   NativeScan []; NativeErr; NativeClose] |}.
Proof. reflexivity. Qed.

Lemma QueryContextWith_pgx_forwards_witness :
  ToSql select_by_id = (select_text, [any_int 7], None)
  /\ Pgx_QueryContext pgx_client_rows_and_error ctx select_text [any_int 7]
         (world start) =
       ((Some (pgx_cursor (Some id_name)), Some second_failed),
        run select_text (world start))
  /\ QueryContextWith ctx (WrapPgx pgx_client_rows_and_error) select_by_id
         start =
       Returned (Rows_nil, Some second_failed)
         {| world := run select_text (world start);
            trace := [CallQueryContext ctx select_text [any_int 7];
                      PgxQueryContext ctx select_text [any_int 7]] |}.
Proof.
  split; [reflexivity |]. split; [reflexivity |].
  exact (QueryContextWith_pgx_forwards ctx pgx_client_rows_and_error
           select_by_id select_text [any_int 7] start
           (Some (pgx_cursor (Some id_name))) (Some second_failed)
           (run select_text (world start)) eq_refl eq_refl).
Defined.

Lemma QueryContextWith_std_forwards_witness :
  ToSql select_by_id = (select_text, [any_int 7], None)
  /\ Std_QueryContext std_client ctx select_text [any_int 7] (world start) =
       ((Some (sql_cursor true), None), run select_text (world start))
  /\ QueryContextWith ctx (WrapStdSqlCtx std_client) select_by_id start =
       Returned (Rows_Std {| StdRows := Some (sql_cursor true) |}, None)
         {| world := run select_text (world start);
            trace := [CallQueryContext ctx select_text [any_int 7];
                      StdQueryContext ctx select_text [any_int 7]] |}.
Proof.
  split; [reflexivity |]. split; [reflexivity |].
  exact (QueryContextWith_std_forwards ctx std_client select_by_id
           select_text [any_int 7] start (Some (sql_cursor true)) None
           (run select_text (world start)) eq_refl eq_refl).
Defined.

Lemma pgx_QueryContext_nil_rows_panics_witness :
  Pgx_QueryContext pgx_client_no_rows ctx select_text [any_int 7]
      (world start) =
    ((None, None), run select_text (world start))
  /\ exists (rows : Rows DB) (st' : State DB),
       pgxRunner_QueryContext {| pgx := pgx_client_no_rows |} ctx select_text
           [any_int 7] start =
         Returned (rows, None) st'
       /\ rows <> Rows_nil
       /\ forall (op : CursorOp) (st2 : State DB),
            Rows_do rows op st2 = Panicked st2.
Proof.
  split; [reflexivity |].
  exact (pgx_QueryContext_nil_rows_panics {| pgx := pgx_client_no_rows |} ctx
           select_text [any_int 7] start (run select_text (world start))
           eq_refl).
Defined.

Lemma QueryRowContextWith_wraps_native_row_witness :
  ToSql select_by_id = (select_text, [any_int 7], None)
  /\ QueryRowContextWith ctx (WrapPgx (pgx_client 0)) select_by_id start =
       Returned (RowScanner_Row (RowScanner_native row) None)
         {| world := run select_text (world start);
            trace := [CallQueryRowContext ctx select_text [any_int 7];
                      PgxQueryRow ctx select_text [any_int 7]] |}.
Proof.
  split; [reflexivity |].
  exact (proj1 (QueryRowContextWith_wraps_native_row ctx (pgx_client 0)
                  std_client select_by_id select_text [any_int 7] None start
                  eq_refl)).
Defined.

Lemma std_result_forwards_driver_pairs_witness :
  ToSql update = ("UPDATE t SET x=1", [], None)
  /\ (res ← ExecContextWith ctx (WrapStdSqlCtx std_client) update;
      last ← sql_Result_LastInsertId res.1;
      affected ← sql_Result_RowsAffected tag_rows res.1;
      mret (last, affected, res.2)) start =
     Returned ((7, None), (1, None), None)
       {| world := run "UPDATE t SET x=1" (world start);
          trace := [CallExecContext ctx "UPDATE t SET x=1" [];
                    StdExecContext ctx "UPDATE t SET x=1" []] |}.
Proof.
  split; [reflexivity |].
  exact (std_result_forwards_driver_pairs tag_rows ctx std_client update
           "UPDATE t SET x=1" [] start
           {| driver_LastInsertId := (7, None);
              driver_RowsAffected := (1, None) |}
           None (run "UPDATE t SET x=1" (world start)) eq_refl eq_refl).
Defined.


